(** * python-mockery: [real_code.py] in Rocq

    A shallow embedding of [real_code.py] (Python 2): the date formatter
    [format_date_for_search] / [format_today_for_search] and the generator
    [google_for_today], together with executable models of the library
    calls they make ([str.format], [date.strftime], [urlparse], [parse_qs],
    [Tag.__getitem__], [select]).

    Python [str] is modelled as [string] (characters are code points 0..255),
    Python [int] as [Z], [dict] as [gmap], exceptions as values of [exn]. *)

From Stdlib Require Import ZArith Ascii DecimalString.
From stdpp Require Import gmap strings list.

Local Open Scope Z_scope.

(** ** Strings *)

Module Str.

(** [s.startswith(p)] *)
Definition startswith (s p : string) : bool := String.prefix p s.

(** [str(n)] for an [int]. *)
Definition of_Z (n : Z) : string := NilZero.string_of_int (Z.to_int n).

(** [c in s] for a one-character [c]. *)
Fixpoint mem (c : ascii) (s : string) : bool :=
  match s with
  | EmptyString => false
  | String c' s' => if Ascii.eqb c c' then true else mem c s'
  end.

(** [s.split(c)]: the pieces of [s] between occurrences of [c]; never
    empty, the empty string splits into one empty piece. *)
Fixpoint split (c : ascii) (s : string) : list string :=
  match s with
  | EmptyString => [EmptyString]
  | String c' s' =>
      if Ascii.eqb c c' then EmptyString :: split c s'
      else match split c s' with
           | [] => [String c' EmptyString]
           | p :: ps => String c' p :: ps
           end
  end.

(** [s.split(c, 1)]: [(s, None)] when [c] does not occur, else the text
    before the first [c] and the text after it. *)
Fixpoint split1 (c : ascii) (s : string) : string * option string :=
  match s with
  | EmptyString => (EmptyString, None)
  | String c' s' =>
      if Ascii.eqb c c' then (EmptyString, Some s')
      else let '(a, b) := split1 c s' in (String c' a, b)
  end.

(** [s.replace(a, b)] for one-character [a] and [b]. *)
Fixpoint replace (a b : ascii) (s : string) : string :=
  match s with
  | EmptyString => EmptyString
  | String c s' => String (if Ascii.eqb c a then b else c) (replace a b s')
  end.

(** [all(p(c) for c in s)] *)
Fixpoint all (p : ascii -> bool) (s : string) : bool :=
  match s with
  | EmptyString => true
  | String c s' => p c && all p s'
  end.

(** ASCII lower-casing, [s.lower()]. *)
Definition lower_char (c : ascii) : ascii :=
  let n := N_of_ascii c in
  if ((65 <=? n) && (n <=? 90))%N then ascii_of_N (n + 32) else c.

Fixpoint lower (s : string) : string :=
  match s with
  | EmptyString => EmptyString
  | String c s' => String (lower_char c) (lower s')
  end.

End Str.

(** ** Exceptions and outcomes *)

Inductive exn : Type :=
  | ValueError (msg : string)
  | KeyError (key : string)
  | RequestException (msg : string).

Inductive outcome (A : Type) : Type :=
  | Ok (a : A)
  | Raise (e : exn).
Arguments Ok {A} a.
Arguments Raise {A} e.

(** ** [datetime.date] *)

Record date : Type := Date { year : Z; month : Z; day : Z }.

Module Datetime.

Definition _is_leap (y : Z) : bool :=
  (y mod 4 =? 0) && (negb (y mod 100 =? 0) || (y mod 400 =? 0)).

Definition _days_in_month (y m : Z) : Z :=
  if m =? 2 then (if _is_leap y then 29 else 28)
  else if (m =? 4) || (m =? 6) || (m =? 9) || (m =? 11) then 30
  else 31.

(** The triples [datetime.date(y, m, d)] accepts. *)
Definition valid (d : date) : bool :=
  (1 <=? year d) && (year d <=? 9999) &&
  (1 <=? month d) && (month d <=? 12) &&
  (1 <=? day d) && (day d <=? _days_in_month (year d) (month d)).

Definition _days_before_year (y : Z) : Z :=
  let y' := y - 1 in
  y' * 365 + y' / 4 - y' / 100 + y' / 400.

Definition _DAYS_BEFORE_MONTH : list Z :=
  [0; 31; 59; 90; 120; 151; 181; 212; 243; 273; 304; 334].

Definition _days_before_month (y m : Z) : Z :=
  default 0 (_DAYS_BEFORE_MONTH !! Z.to_nat (m - 1))
  + (if (2 <? m) && _is_leap y then 1 else 0).

(** [date.toordinal()]: 1 for 0001-01-01. *)
Definition toordinal (d : date) : Z :=
  _days_before_year (year d) + _days_before_month (year d) (month d) + day d.

(** [date.weekday()]: Monday is 0. *)
Definition weekday (d : date) : Z := (toordinal d + 6) mod 7.

Definition day_names : list string :=
  ["Monday"; "Tuesday"; "Wednesday"; "Thursday"; "Friday"; "Saturday";
   "Sunday"].

Definition month_names : list string :=
  ["January"; "February"; "March"; "April"; "May"; "June"; "July";
   "August"; "September"; "October"; "November"; "December"].

Definition zero_pad2 (n : Z) : string :=
  if n <? 10 then "0" +:+ Str.of_Z n else Str.of_Z n.

(** The expansion of one conversion [%c] (C locale).  Conversions that
    are not listed are copied unchanged. *)
Definition conversion (d : date) (c : ascii) : string :=
  if Ascii.eqb c "A" then default EmptyString (day_names !! Z.to_nat (weekday d))
  else if Ascii.eqb c "a"
  then String.substring 0 3 (default EmptyString (day_names !! Z.to_nat (weekday d)))
  else if Ascii.eqb c "B"
  then default EmptyString (month_names !! Z.to_nat (month d - 1))
  else if Ascii.eqb c "b"
  then String.substring 0 3 (default EmptyString (month_names !! Z.to_nat (month d - 1)))
  else if Ascii.eqb c "Y" then Str.of_Z (year d)
  else if Ascii.eqb c "m" then zero_pad2 (month d)
  else if Ascii.eqb c "d" then zero_pad2 (day d)
  else if Ascii.eqb c "%" then "%"
  else String "%" (String c EmptyString).

Fixpoint expand (d : date) (fmt : string) : string :=
  match fmt with
  | EmptyString => EmptyString
  | String c rest =>
      if Ascii.eqb c "%" then
        match rest with
        | EmptyString => String c EmptyString
        | String k rest' => conversion d k +:+ expand d rest'
        end
      else String c (expand d rest)
  end.

(** [date.strftime(fmt)].  Python 2 refuses years before 1900. *)
Definition strftime (d : date) (fmt : string) : outcome string :=
  if year d <? 1900
  then Raise (ValueError ("year=" +:+ Str.of_Z (year d) +:+
         " is before 1900; the datetime strftime() methods require year >= 1900"))
  else Ok (expand d fmt).

End Datetime.

(** ** [str.format] with keyword arguments

    Replacement fields are plain names, [{name}]; [{{] and [}}] are the
    escapes of the two braces. *)

Fixpoint format_go (kwargs : list (string * string)) (field : option string)
    (s : string) : outcome string :=
  match s with
  | EmptyString =>
      match field with
      | None => Ok EmptyString
      | Some _ => Raise (ValueError "unmatched '{' in format")
      end
  | String c rest =>
      match field with
      | Some name =>
          if Ascii.eqb c "}" then
            match list_find (fun kv => bool_decide (kv.1 = name)) kwargs with
            | Some (_, (_, v)) =>
                match format_go kwargs None rest with
                | Ok r => Ok (v +:+ r)
                | Raise e => Raise e
                end
            | None => Raise (KeyError name)
            end
          else format_go kwargs (Some (name +:+ String c EmptyString)) rest
      | None =>
          let literal (tl : string) :=
            match format_go kwargs None tl with
            | Ok r => Ok (String c r)
            | Raise e => Raise e
            end in
          if Ascii.eqb c "{" then
            match rest with
            | String "{" rest' => literal rest'
            | _ => format_go kwargs (Some EmptyString) rest
            end
          else if Ascii.eqb c "}" then
            match rest with
            | String "}" rest' => literal rest'
            | _ => Raise (ValueError "Single '}' encountered in format string")
            end
          else literal rest
      end
  end.

Definition str_format (fmt : string) (kwargs : list (string * string))
    : outcome string :=
  format_go kwargs None fmt.


(** ** [urlparse] (Python 2.7)

    [urlsplit] cuts an URL into scheme, network location, path, query and
    fragment.  [urlparse] further cuts the path's parameters off, which
    leaves the query untouched; only [.query] is read by the program, so
    [urlparse] is modelled by [urlsplit]. *)

Module Urlparse.

Record SplitResult : Type := mkSplitResult {
  scheme : string; netloc : string; path : string;
  query : string; fragment : string }.

Definition is_digit (c : ascii) : bool :=
  let n := N_of_ascii c in ((48 <=? n) && (n <=? 57))%N.

Definition is_alpha (c : ascii) : bool :=
  let n := N_of_ascii c in
  (((65 <=? n) && (n <=? 90)) || ((97 <=? n) && (n <=? 122)))%N.

(** [c in scheme_chars] *)
Definition scheme_char (c : ascii) : bool :=
  is_alpha c || is_digit c || Str.mem c "+-.".

(** The longest prefix of [s] free of the characters of [stops], and the
    rest. *)
Fixpoint span_until (stops : string) (s : string) : string * string :=
  match s with
  | EmptyString => (EmptyString, EmptyString)
  | String c s' =>
      if Str.mem c stops then (EmptyString, s)
      else let '(a, b) := span_until stops s' in (String c a, b)
  end.

(** [_splitnetloc(url, 2)] for an [url] that starts with two slashes,
    given the text after them. *)
Definition _splitnetloc (after_slashes : string) : string * string :=
  span_until "/?#" after_slashes.

(** The scheme of [url] and what follows it. *)
Definition split_scheme (url : string) : string * string :=
  match Str.split1 ":" url with
  | (EmptyString, _) | (_, None) => (EmptyString, url)
  | (before, Some rest) =>
      if String.eqb before "http" then ("http", rest)
      else if Str.all scheme_char before then
        if String.eqb rest EmptyString || negb (Str.all is_digit rest)
        then (Str.lower before, rest)
        else (EmptyString, url)
      else (EmptyString, url)
  end.

Definition urlsplit (url : string) : outcome SplitResult :=
  let '(sch, url) := split_scheme url in
  let located :=
    match url with
    | String "/" (String "/" after) =>
        let '(nl, rest) := _splitnetloc after in
        if (Str.mem "[" nl && negb (Str.mem "]" nl))
           || (Str.mem "]" nl && negb (Str.mem "[" nl))
        then Raise (ValueError "Invalid IPv6 URL")
        else Ok (nl, rest)
    | _ => Ok (EmptyString, url)
    end in
  match located with
  | Raise e => Raise e
  | Ok (nl, url) =>
      let '(url, frag) := Str.split1 "#" url in
      let '(url, qry) := Str.split1 "?" url in
      Ok (mkSplitResult sch nl url (default EmptyString qry) (default EmptyString frag))
  end.

Definition urlparse := urlsplit.

(** *** [unquote]: percent-decoding *)

Definition hex_value (c : ascii) : option N :=
  let n := N_of_ascii c in
  if ((48 <=? n) && (n <=? 57))%N then Some (n - 48)%N
  else if ((65 <=? n) && (n <=? 70))%N then Some (n - 55)%N
  else if ((97 <=? n) && (n <=? 102))%N then Some (n - 87)%N
  else None.

(** [_hextochr.get(a + b)] *)
Definition _hextochr (a b : ascii) : option ascii :=
  match hex_value a, hex_value b with
  | Some h, Some l => Some (ascii_of_N (16 * h + l))
  | _, _ => None
  end.

Fixpoint unquote (s : string) : string :=
  match s with
  | EmptyString => EmptyString
  | String c rest =>
      if Ascii.eqb c "%" then
        match rest with
        | String a (String b rest') =>
            match _hextochr a b with
            | Some x => String x (unquote rest')
            | None => String c (unquote rest)
            end
        | _ => String c (unquote rest)
        end
      else String c (unquote rest)
  end.

(** *** [parse_qsl] and [parse_qs] with their default arguments
    ([keep_blank_values=0], [strict_parsing=0]) *)

Definition parse_field (name_value : string) : option (string * string) :=
  match Str.split1 "=" name_value with
  | (_, None) => None
  | (n, Some v) =>
      if String.eqb v EmptyString then None
      else Some (unquote (Str.replace "+" " " n),
                 unquote (Str.replace "+" " " v))
  end.

Definition parse_qsl (qs : string) : list (string * string) :=
  let pairs := s1 ← Str.split "&" qs; Str.split ";" s1 in
  omap parse_field pairs.

Definition parse_qs (qs : string) : gmap string (list string) :=
  foldl (fun (dict : gmap string (list string)) '(name, value) =>
           <[name := default [] (dict !! name) ++ [value]]> dict)
        ∅ (parse_qsl qs).

End Urlparse.


(** ** BeautifulSoup documents

    A parsed page is a tree of tags.  [css_class] is the value of the
    [class] attribute, which BeautifulSoup keeps as a list of names; [attrs]
    holds the other attributes. *)

#[warnings="-register-all"]
Inductive tag : Type :=
  | Tag (name : string) (css_class : list string)
        (attrs : list (string * string)) (contents : list tag)
  | NavigableString (s : string).

Module Bs4.

(** [tag[key]]: raises [KeyError] when the attribute is absent. *)
Definition getitem (t : tag) (key : string) : outcome string :=
  match t with
  | Tag _ _ attrs _ =>
      match list_find (fun kv => bool_decide (kv.1 = key)) attrs with
      | Some (_, (_, v)) => Ok v
      | None => Raise (KeyError key)
      end
  | NavigableString _ => Raise (KeyError key)
  end.

(** One step [name] or [name.class] of a CSS selector. *)
Record simple_selector : Type := Simple {
  sel_name : string; sel_class : option string }.

Definition matches (sel : simple_selector) (t : tag) : bool :=
  match t with
  | Tag n cs _ _ =>
      String.eqb n (sel_name sel) &&
      match sel_class sel with
      | None => true
      | Some c => bool_decide (c ∈ cs)
      end
  | NavigableString _ => false
  end.

(** The tags at or below [t], in document order, that match the last step
    of [pending] and lie below tags matching the earlier steps in turn. *)
Fixpoint descend (pending : list simple_selector) (t : tag) : list tag :=
  match t with
  | NavigableString _ => []
  | Tag _ _ _ kids =>
      match pending with
      | [] => []
      | [last] =>
          (if matches last t then [t] else [])
          ++ flat_map (descend pending) kids
      | step :: later =>
          flat_map (descend (if matches step t then later else pending)) kids
      end
  end.

(** [soup.select(selector)] for a selector made of descendant steps: the
    matching tags below [soup], each once, in document order. *)
Definition select (soup : tag) (selector : list simple_selector) : list tag :=
  match soup with
  | Tag _ _ _ kids => flat_map (descend selector) kids
  | NavigableString _ => []
  end.

End Bs4.

(** ** The world of the program

    The module-level names [datetime], [requests] and [BeautifulSoup] are
    bindings that a caller can replace; they are fields of the world, next
    to what the program changes: the number of clock readings taken and the
    text printed. *)

Record response : Type := Response {
  status_code : Z;
  headers : list (string * string);
  text : string;
  content : string }.

Inductive printed : Type :=
  | PrintedHeaders (h : list (string * string))
  | PrintedText (s : string).

Record world : Type := World {
  (** [datetime.date.today()] at its n-th call *)
  datetime_date_today : nat -> date;
  (** [requests.get(url, params=...)] *)
  requests_get : string -> list (string * string) -> outcome response;
  BeautifulSoup : string -> tag;
  (** the number of clock readings taken *)
  today_calls : nat;
  (** the markup handed to [BeautifulSoup], oldest first *)
  parsed : list string;
  stdout : list printed }.

(** A run of a function or generator body: the values it yielded, how it
    ended and the world it left.  A generator is run as its consumer drives
    it to exhaustion ([list(google_for_today())], the [for] loop of the
    script): the values yielded before an exception are still delivered. *)
Record run (A : Type) : Type := Run {
  yielded : list string;
  result : outcome A;
  final : world }.
Arguments Run {A} _ _ _.
Arguments yielded {A} _.
Arguments result {A} _.
Arguments final {A} _.

Definition py (A : Type) : Type := world -> run A.

Definition ret {A} (a : A) : py A := fun w => Run [] (Ok a) w.

Definition raise {A} (e : exn) : py A := fun w => Run [] (Raise e) w.

Definition bind {A B} (m : py A) (k : A -> py B) : py B := fun w =>
  let r := m w in
  match result r with
  | Ok a => let r' := k a (final r) in
            Run (yielded r ++ yielded r') (result r') (final r')
  | Raise e => Run (yielded r) (Raise e) (final r)
  end.

Notation "x <- m ;; k" := (bind m (fun x => k))
  (at level 100, m at next level, right associativity).
Notation "m ;;; k" := (bind m (fun _ => k))
  (at level 100, right associativity).

(** A library call that returns or raises. *)
Definition call {A} (o : outcome A) : py A := fun w => Run [] o w.

Definition yield (v : string) : py unit := fun w => Run [v] (Ok tt) w.

Definition print (x : printed) : py unit := fun w =>
  Run [] (Ok tt)
      (World (datetime_date_today w) (requests_get w) (BeautifulSoup w)
             (today_calls w) (parsed w) (stdout w ++ [x])).

Definition date_today : py date := fun w =>
  Run [] (Ok (datetime_date_today w (today_calls w)))
      (World (datetime_date_today w) (requests_get w) (BeautifulSoup w)
             (S (today_calls w)) (parsed w) (stdout w)).

Definition get (url : string) (params : list (string * string)) : py response :=
  fun w => Run [] (requests_get w url params) w.

Definition make_soup (markup : string) : py tag := fun w =>
  Run [] (Ok (BeautifulSoup w markup))
      (World (datetime_date_today w) (requests_get w) (BeautifulSoup w)
             (today_calls w) (parsed w ++ [markup]) (stdout w)).

(** [for x in xs: body(x)] *)
Fixpoint for_each {A} (xs : list A) (body : A -> py unit) : py unit :=
  match xs with
  | [] => ret tt
  | x :: xs' => body x ;;; for_each xs' body
  end.

(** ** [real_code.py] *)

Definition DATE_SEARCH_FORMAT : string := "%A %B {ordinal_day} %Y".

Definition ORDINAL_SUFFIXES : gmap Z string :=
  {[ 1 := "st"; 2 := "nd"; 3 := "rd"; 21 := "st"; 22 := "nd"; 23 := "rd";
     31 := "st" ]}.

(** [ORDINAL_SUFFIXES.get(d, 'th')] *)
Definition suffix (d : Z) : string := default "th" (ORDINAL_SUFFIXES !! d).

Definition format_date_for_search (date : date) : py string :=
  let ordinal_day := Str.of_Z (day date) +:+ suffix (day date) in
  date_search <- call (str_format DATE_SEARCH_FORMAT
                         [("ordinal_day", ordinal_day)]) ;;
  call (Datetime.strftime date date_search).

Definition format_today_for_search : py string :=
  today <- date_today ;;
  format_date_for_search today.

(** The parsed form of the selector ['li.g h3.r a']. *)
Definition RESULT_SELECTOR : list Bs4.simple_selector :=
  [Bs4.Simple "li" (Some "g"); Bs4.Simple "h3" (Some "r"); Bs4.Simple "a" None].

(** Lines 51-57: the body of the [for] loop over the selected links. *)
Definition visit_link (link : tag) : py unit :=
  href <- call (Bs4.getitem link "href") ;;
  parsed <- call (Urlparse.urlparse href) ;;
  let query_string := Urlparse.query parsed in
  let urls := Urlparse.parse_qs query_string !! "q" in
  match urls with
  | Some (actual_url :: _) =>
      if Str.startswith actual_url "http" then yield actual_url else ret tt
  | _ => ret tt
  end.

(** Lines 47-57: selecting the result links of a parsed page and harvesting
    their destinations. *)
Definition extract (google_soup : tag) : py unit :=
  let search_results := Bs4.select google_soup RESULT_SELECTOR in
  for_each search_results visit_link.

Definition google_for_today : py unit :=
  date <- date_today ;;
  q <- format_date_for_search date ;;
  response <- get "http://google.com/search" [("q", q)] ;;
  (if negb (status_code response =? 200) then
     print (PrintedHeaders (headers response)) ;;;
     print (PrintedText (text response)) ;;;
     raise (ValueError "bad google")
   else ret tt) ;;;
  google_soup <- make_soup (content response) ;;
  extract google_soup.

(** ** Sample pages and worlds *)

Module Sample.

Definition anchor (href label : string) : tag :=
  Tag "a" [] [("href", href)] [NavigableString label].

Definition hit (link : tag) : tag :=
  Tag "li" ["g"] [] [Tag "h3" ["r"] [] [link]].

Definition page_of (items : list tag) : tag :=
  Tag "[document]" [] []
    [Tag "html" [] []
       [Tag "head" [] [] [Tag "title" [] [] [NavigableString "results"]];
        Tag "body" [] []
          [Tag "a" [] [("href", "/preferences")] [NavigableString "Settings"];
           Tag "ol" [] [("id", "rso")] items]]].

(** One absolute destination and one relative one. *)
Definition two_links : tag :=
  page_of [hit (anchor "/url?q=http://example.com/x&sa=U" "Example");
           hit (anchor "/url?q=/relative/path&sa=U" "Internal")].

(** No list item of class [g]: nothing is selected. *)
Definition no_results : tag :=
  page_of [Tag "li" [] [] [Tag "h3" ["r"] [] [anchor "/url?q=http://a.example/" "A"]]].

(** Links without a usable [q] among good ones. *)
Definition mixed : tag :=
  page_of [hit (anchor "/url?sa=U" "no q");
           hit (anchor "/url?q=&sa=U" "empty q");
           hit (anchor "/url?q=https://b.example/%7Euser&q=http://c.example/" "B");
           hit (anchor EmptyString "empty href");
           hit (anchor "/url?q=http://d.example/" "D")].

(** A result link that has no [href] attribute, between two good ones. *)
Definition missing_href : tag :=
  page_of [hit (anchor "/url?q=http://a.example/" "A");
           hit (Tag "a" [] [("name", "top")] [NavigableString "?"]);
           hit (anchor "/url?q=http://d.example/" "D")].

(** A result link whose network location opens a bracket and never
    closes it. *)
Definition bad_netloc : tag :=
  page_of [hit (anchor "//[google.com/url?q=http://a.example/" "A");
           hit (anchor "/url?q=http://d.example/" "D")].

Definition failure : response :=
  Response 503 [("content-type", "text/html")] "Service Unavailable"
           "Service Unavailable".

(** A world whose server answers every request with [failure]. *)
Definition failing (today : date) : world :=
  World (fun _ => today) (fun _ _ => Ok failure) (fun _ => no_results) 0 [] [].

Definition serving (status : Z) (page : tag) (today : date) : world :=
  World (fun _ => today)
        (fun _ _ => Ok (Response status [("content-type", "text/html")]
                                 "<html>...</html>" "<html>...</html>"))
        (fun _ => page) 0 [] [].

End Sample.


(** ** The documented behaviour, for comparison *)

(** The weekday and month names [strftime] prints. *)
Definition day_name (d : date) : string :=
  default EmptyString (Datetime.day_names !! Z.to_nat (Datetime.weekday d)).
Definition month_name (d : date) : string :=
  default EmptyString (Datetime.month_names !! Z.to_nat (month d - 1)).

(** The suffix as the documentation words it: [st] for 1, 21 and 31, [nd]
    for 2 and 22, [rd] for 3 and 23, [th] for every other day. *)
Definition documented_suffix (d : Z) : string :=
  if bool_decide (d ∈ [1; 21; 31]) then "st"
  else if bool_decide (d ∈ [2; 22]) then "nd"
  else if bool_decide (d ∈ [3; 23]) then "rd"
  else "th".

Definition non_th_days : list Z := [1; 2; 3; 21; 22; 23; 31].

(** The documented shape of a query string:
    [<Weekday> <Month> <Day><Suffix> <Year>]. *)
Definition query_string_of (d : date) : string :=
  day_name d +:+ " " +:+ month_name d +:+ " " +:+
  Str.of_Z (day d) +:+ documented_suffix (day d) +:+ " " +:+
  Str.of_Z (year d).

(** The values paired with [name] in a list of pairs, in order. *)
Definition values_of (name : string) (pairs : list (string * string))
    : list string :=
  (filter (λ kv, kv.1 = name) pairs).*2.

(** The first value of the parameter [q] of a query string, reading the
    query from left to right. *)
Definition first_q (qs : string) : option string :=
  head (values_of "q" (Urlparse.parse_qsl qs)).

(** Decoding of a name or value of a query: [+] is a space, then
    percent-decoding. *)
Definition decoded (s : string) : string :=
  Urlparse.unquote (Str.replace "+" " " s).

(** The text after [=] of a field whose name decodes to [q]. *)
Definition raw_q_value (field : string) : option string :=
  match Str.split1 "=" field with
  | (n, Some v) => if bool_decide (decoded n = "q") then Some v else None
  | (_, None) => None
  end.

(** The text after [=] of each field of a query string whose name decodes
    to [q], blank or not. *)
Definition raw_q_values (qs : string) : list string :=
  omap raw_q_value (s1 ← Str.split "&" qs; Str.split ";" s1).

(** The destination a result link carries: the first value of [q] in the
    query of its [href], if there is one. *)
Definition destination (link : tag) : outcome (option string) :=
  match Bs4.getitem link "href" with
  | Raise e => Raise e
  | Ok href =>
      match Urlparse.urlparse href with
      | Raise e => Raise e
      | Ok parsed => Ok (first_q (Urlparse.query parsed))
      end
  end.

(** What one link contributes to the sequence: its destination when that
    begins with [http], nothing otherwise. *)
Definition harvested (link : tag) : option string :=
  match destination link with
  | Ok (Some url) => if Str.startswith url "http" then Some url else None
  | _ => None
  end.

(** A link the loop can read: it has an [href] and [urlparse] accepts it. *)
Definition readable (link : tag) : Prop :=
  ∃ href parsed, Bs4.getitem link "href" = Ok href ∧
                 Urlparse.urlparse href = Ok parsed.

(** A readable link whose [href] has no parameter [q], or only blank ones. *)
Definition q_missing_or_blank (link : tag) : Prop :=
  ∃ href parsed, Bs4.getitem link "href" = Ok href ∧
                 Urlparse.urlparse href = Ok parsed ∧
                 Forall (λ v, v = EmptyString)
                        (raw_q_values (Urlparse.query parsed)).

(** [m] yields only values that satisfy [P], in every world. *)
Definition yields_only (P : string → Prop) {A} (m : py A) : Prop :=
  ∀ w, Forall P (yielded (m w)).

(** An URL with an absolute scheme, as the loop tests it. *)
Definition begins_with_http (url : string) : Prop :=
  Str.startswith url "http" = true.

(** The world after the two [print]s of the error branch. *)
Definition after_failure (w : world) (r : response) : world :=
  World (datetime_date_today w) (requests_get w) (BeautifulSoup w)
        (S (today_calls w)) (parsed w)
        (stdout w ++ [PrintedHeaders (headers r); PrintedText (text r)]).

(** The world in which extraction starts: the clock read once, the
    response body handed to the parser. *)
Definition after_fetch (w : world) (r : response) : world :=
  World (datetime_date_today w) (requests_get w) (BeautifulSoup w)
        (S (today_calls w)) (parsed w ++ [content r]) (stdout w).

(** The English rule for ordinals, which the table of suffixes stands in
    for: [th] for the teens, else by the last digit. *)
Definition english_ordinal_suffix (d : Z) : string :=
  if bool_decide (d mod 100 ∈ [11; 12; 13]) then "th"
  else if d mod 10 =? 1 then "st"
  else if d mod 10 =? 2 then "nd"
  else if d mod 10 =? 3 then "rd"
  else "th".

(** The world after one reading of the clock. *)
Definition ticked (w : world) : world :=
  World (datetime_date_today w) (requests_get w) (BeautifulSoup w)
        (S (today_calls w)) (parsed w) (stdout w).

(** The world with another binding for [requests.get]. *)
Definition with_requests (w : world)
    (get' : string → list (string * string) → outcome response) : world :=
  World (datetime_date_today w) get' (BeautifulSoup w)
        (today_calls w) (parsed w) (stdout w).

(** The address and parameters of the one request of the workflow. *)
Definition SEARCH_URL : string := "http://google.com/search".

Definition is_anchor (t : tag) : Prop :=
  match t with
  | Tag n _ _ _ => n = "a"
  | NavigableString _ => False
  end.

(** A raw value that [parse_qs] keeps. *)
Definition nonblank (v : string) : Prop := v ≠ EmptyString.

(** Some tag at or below [t] satisfies [p]. *)
Fixpoint any_tag (p : tag → bool) (t : tag) : bool :=
  p t ||
  match t with
  | Tag _ _ _ kids => existsb (any_tag p) kids
  | NavigableString _ => false
  end.

(** * Properties *)

(** ** Running the monad *)

Lemma run_bind_ok {A B} (m : py A) (k : A -> py B) w a w' :
  m w = Run [] (Ok a) w' → bind m k w = k a w'.
Proof. intros H. unfold bind. rewrite H. simpl. by destruct (k a w'). Qed.

Lemma run_bind_raise {A B} (m : py A) (k : A -> py B) w ys e w' :
  m w = Run ys (Raise e) w' → bind m k w = Run ys (Raise e) w'.
Proof. intros H. unfold bind. by rewrite H. Qed.

Lemma run_call_bind {A B} (o : outcome A) (k : A -> py B) w :
  bind (call o) k w =
  match o with Ok a => k a w | Raise e => Run [] (Raise e) w end.
Proof. destruct o; [by apply run_bind_ok | by apply run_bind_raise]. Qed.

(** ** The ordinal suffix table *)

Ltac lookup_suffix d :=
  unfold suffix, ORDINAL_SUFFIXES;
  repeat (first [rewrite lookup_insert | rewrite lookup_singleton];
          case_decide; [subst d; try (vm_compute; reflexivity) |]).

Lemma suffix_cases (d : Z) : suffix d = documented_suffix d.
Proof.
  unfold documented_suffix. lookup_suffix d.
  repeat case_bool_decide; try done;
    exfalso; rewrite ?elem_of_cons, ?elem_of_nil in *; lia.
Qed.

Lemma suffix_percent_free (d : Z) : Str.mem "%" (suffix d) = false.
Proof.
  rewrite suffix_cases. unfold documented_suffix. by repeat case_bool_decide.
Qed.

(** ** Decimal numerals hold no conversion character *)

Lemma uint_percent_free (u : Decimal.uint) :
  Str.mem "%" (NilEmpty.string_of_uint u) = false.
Proof. induction u; simpl; done. Qed.

Lemma of_Z_percent_free (n : Z) : Str.mem "%" (Str.of_Z n) = false.
Proof.
  unfold Str.of_Z, NilZero.string_of_int.
  destruct (Z.to_int n) as [u | u]; unfold NilZero.string_of_uint;
    destruct u; simpl; try done; apply uint_percent_free.
Qed.

Lemma mem_append c (s t : string) :
  Str.mem c (s +:+ t) = Str.mem c s || Str.mem c t.
Proof. induction s as [| c' s IH]; simpl; [done |]. by destruct (Ascii.eqb c c'). Qed.

(** ** [strftime] copies text that holds no [%] *)

Lemma expand_literal (d : date) (s t : string) :
  Str.mem "%" s = false →
  Datetime.expand d (s +:+ t) = s +:+ Datetime.expand d t.
Proof.
  induction s as [| c s IH]; [done |].
  change (String c s +:+ t) with (String c (s +:+ t)).
  change (Datetime.expand d (String c (s +:+ t)))
    with (if Ascii.eqb c "%"
          then match s +:+ t with
               | EmptyString => String c EmptyString
               | String k rest' =>
                   Datetime.conversion d k +:+ Datetime.expand d rest'
               end
          else String c (Datetime.expand d (s +:+ t))).
  change (Str.mem "%" (String c s))
    with (if Ascii.eqb "%" c then true else Str.mem "%" s).
  rewrite (Ascii.eqb_sym c "%").
  destruct (Ascii.eqb "%" c); [done |].
  intros H. by rewrite IH.
Qed.

Lemma append_assoc (a b c : string) : (a +:+ b) +:+ c = a +:+ (b +:+ c).
Proof.
  induction a as [| x a IH]; [done |].
  change (String x ((a +:+ b) +:+ c) = String x (a +:+ (b +:+ c))).
  by rewrite IH.
Qed.

Lemma append_empty (a : string) : a +:+ EmptyString = a.
Proof.
  induction a as [| x a IH]; [done |].
  change (String x (a +:+ EmptyString) = String x a). by rewrite IH.
Qed.

(** The template after [str.format]: the two conversions, the day with its
    suffix, the year conversion. *)
Lemma format_date_for_search_strftime (d : date) (w : world) :
  format_date_for_search d w =
  Run [] (Datetime.strftime d
            ("%A %B " +:+ (Str.of_Z (day d) +:+ suffix (day d)) +:+ " %Y")) w.
Proof.
  unfold format_date_for_search. rewrite run_call_bind.
  change (str_format DATE_SEARCH_FORMAT
            [("ordinal_day", Str.of_Z (day d) +:+ suffix (day d))])
    with (Ok ("%A %B " +:+ (Str.of_Z (day d) +:+ suffix (day d)) +:+ " %Y")).
  done.
Qed.

(** What [format_date_for_search] returns from 1900 on: weekday, month,
    the day with its suffix, the year; the world is left as it was. *)
Lemma format_date_for_search_returns (d : date) (w : world) :
  1900 <= year d →
  format_date_for_search d w = Run [] (Ok (query_string_of d)) w.
Proof.
  intros Hy. rewrite format_date_for_search_strftime.
  unfold Datetime.strftime.
  replace (year d <? 1900) with false by (symmetry; apply Z.ltb_ge; lia).
  do 2 f_equal.
  change ("%A %B " +:+ (Str.of_Z (day d) +:+ suffix (day d)) +:+ " %Y")
    with (String "%" (String "A" (String " " (String "%" (String "B" (String " "
           ((Str.of_Z (day d) +:+ suffix (day d)) +:+ " %Y"))))))).
  cbn [Datetime.expand Ascii.eqb Bool.eqb].
  rewrite expand_literal
    by (rewrite mem_append, of_Z_percent_free, suffix_percent_free; done).
  change (Datetime.expand d " %Y")
    with (" " +:+ Str.of_Z (year d) +:+ EmptyString).
  rewrite append_empty.
  unfold query_string_of. rewrite <- suffix_cases.
  change (Datetime.conversion d "A") with (day_name d).
  change (Datetime.conversion d "B") with (month_name d).
  by rewrite !append_assoc.
Qed.

(** Before 1900 [strftime] raises, and so does [format_date_for_search]. *)
Lemma format_date_for_search_raises (d : date) (w : world) :
  year d < 1900 →
  ∃ msg, format_date_for_search d w = Run [] (Raise (ValueError msg)) w.
Proof.
  intros Hy. rewrite format_date_for_search_strftime.
  unfold Datetime.strftime.
  replace (year d <? 1900) with true by (symmetry; apply Z.ltb_lt; lia).
  eauto.
Qed.

(** [format_date_for_search] neither reads nor changes the world: its
    outcome in one world is its outcome in any other. *)
Lemma format_date_for_search_pure (d : date) (w w' : world) :
  format_date_for_search d w =
  Run [] (result (format_date_for_search d w')) w.
Proof. by rewrite !format_date_for_search_strftime. Qed.

(** ** The date formatter *)

(** C1. For every day of the month [d] (1 to 31, and any other integer),
    the suffix [format_date_for_search] appends is [st] for 1, 21 and 31,
    [nd] for 2 and 22, [rd] for 3 and 23 and [th] otherwise; the days with
    a suffix other than [th] are exactly 1, 2, 3, 21, 22, 23 and 31; and the
    string returned for a date with that day carries the day followed by
    that suffix. *)
Theorem ordinal_suffix_table (d : Z) :
  suffix d = documented_suffix d ∧
  (suffix d ≠ "th" ↔ d ∈ non_th_days) ∧
  ∀ (y m : Z) (w : world), 1900 <= y →
    result (format_date_for_search (Date y m d) w) =
    Ok (day_name (Date y m d) +:+ " " +:+ month_name (Date y m d) +:+ " " +:+
        Str.of_Z d +:+ documented_suffix d +:+ " " +:+ Str.of_Z y).
Proof.
  split; [apply suffix_cases |]. split.
  - rewrite suffix_cases. unfold documented_suffix, non_th_days.
    repeat case_bool_decide;
      repeat match goal with
             | H : _ ∈ _ |- _ => apply list_elem_of_In in H; simpl in H
             | H : ¬ _ ∈ _ |- _ => rewrite list_elem_of_In in H; simpl in H
             end;
      rewrite list_elem_of_In; simpl; split; try done; lia.
  - intros y m w Hy.
    by rewrite (format_date_for_search_returns (Date y m d) w Hy).
Qed.

Lemma ordinal_suffix_table_witness :
  result (format_date_for_search (Date 2014 1 21)
            (Sample.failing (Date 2014 1 17))) =
  Ok "Tuesday January 21st 2014".
Proof.
  refine (proj2 (proj2 (ordinal_suffix_table 21)) 2014 1
            (Sample.failing (Date 2014 1 17)) _).
  lia.
Defined.

(** The table on each day of a month, one by one. *)
Example suffixes_1_to_31 :
  suffix <$> seqZ 1 31 =
  ["st"; "nd"; "rd"; "th"; "th"; "th"; "th"; "th"; "th"; "th";
   "th"; "th"; "th"; "th"; "th"; "th"; "th"; "th"; "th"; "th";
   "st"; "nd"; "rd"; "th"; "th"; "th"; "th"; "th"; "th"; "th"; "st"].
Proof. vm_compute. reflexivity. Qed.

(** C2. [format_date_for_search] returns [Wednesday January 1st 2014]
    for 2014-01-01 and [Friday January 17th 2014] for 2014-01-17, in any
    world, which it leaves unchanged. *)
Theorem format_known_dates (w : world) :
  format_date_for_search (Date 2014 1 1) w =
    Run [] (Ok "Wednesday January 1st 2014") w ∧
  format_date_for_search (Date 2014 1 17) w =
    Run [] (Ok "Friday January 17th 2014") w.
Proof. split; vm_compute; reflexivity. Qed.

(** The other dates of [test_format_date]. *)
Example format_tested_dates (w : world) :
  result (format_date_for_search (Date 2014 1 2) w) = Ok "Thursday January 2nd 2014" ∧
  result (format_date_for_search (Date 2014 1 3) w) = Ok "Friday January 3rd 2014" ∧
  result (format_date_for_search (Date 2014 1 4) w) = Ok "Saturday January 4th 2014".
Proof. repeat split; vm_compute; reflexivity. Qed.

(** C8. [format_today_for_search] returns what [format_date_for_search]
    returns on the date the clock supplies (the same string, or the same
    exception), in whatever world the latter is run; it reads the clock
    once, yields nothing and prints nothing. *)
Theorem format_today_is_format_of_clock (w w' : world) :
  let today := datetime_date_today w (today_calls w) in
  let r := format_today_for_search w in
  result r = result (format_date_for_search today w') ∧
  yielded r = [] ∧
  today_calls (final r) = S (today_calls w) ∧
  stdout (final r) = stdout w ∧ parsed (final r) = parsed w.
Proof.
  intros today r. subst r. unfold format_today_for_search.
  erewrite run_bind_ok by reflexivity.
  by rewrite (format_date_for_search_pure _ _ w').
Qed.

(** C9. [format_date_for_search] is deterministic: on one date it ends the
    same way in any two worlds, it leaves the world as it found it and
    yields nothing, and two calls in a row return twice the same string (or
    the first raises what the only call would). *)
Theorem format_date_for_search_deterministic (d : date) (w1 w2 : world) :
  result (format_date_for_search d w1) = result (format_date_for_search d w2) ∧
  final (format_date_for_search d w1) = w1 ∧
  yielded (format_date_for_search d w1) = [] ∧
  (first <- format_date_for_search d ;;
   second <- format_date_for_search d ;;
   ret (first, second)) w1 =
  Run [] (match result (format_date_for_search d w1) with
          | Ok s => Ok (s, s)
          | Raise e => Raise e
          end) w1.
Proof.
  pose proof (λ w, format_date_for_search_pure d w w2) as Hpure.
  destruct (result (format_date_for_search d w2)) as [s | e].
  - rewrite (Hpure w1). repeat split.
    rewrite (run_bind_ok _ _ w1 s w1) by apply Hpure.
    by rewrite (run_bind_ok _ _ w1 s w1) by apply Hpure.
  - rewrite (Hpure w1). repeat split.
    by rewrite (run_bind_raise _ _ w1 [] e w1) by apply Hpure.
Qed.

(** From 1900 on the outcome is a query string, whatever the world. *)
Lemma format_date_for_search_total (d : date) (w : world) :
  1900 <= year d → result (format_date_for_search d w) = Ok (query_string_of d).
Proof. intros Hy. by rewrite format_date_for_search_returns. Qed.

(** ** [parse_qs] as a dictionary *)

Lemma values_of_cons (k n v : string) (pairs : list (string * string)) :
  values_of k ((n, v) :: pairs) =
  if decide (n = k) then v :: values_of k pairs else values_of k pairs.
Proof. unfold values_of. rewrite filter_cons. simpl. by case_decide. Qed.

Lemma parse_qs_fold (k : string) (pairs : list (string * string))
    (dict : gmap string (list string)) :
  foldl (fun (dict : gmap string (list string)) '(name, value) =>
           <[name := default [] (dict !! name) ++ [value]]> dict)
        dict pairs !! k =
  match values_of k pairs with
  | [] => dict !! k
  | vs => Some (default [] (dict !! k) ++ vs)
  end.
Proof.
  revert dict. induction pairs as [| [n v] pairs IH]; intros dict; [done |].
  cbn [foldl]. rewrite IH, values_of_cons.
  case_decide as Hn.
  - subst n. rewrite lookup_insert_eq.
    change (default [] (Some ?l)) with l.
    destruct (values_of k pairs) as [| v' vs']; [done |].
    by rewrite <- app_assoc.
  - by rewrite lookup_insert_ne.
Qed.

(** The list under a key holds the values of that key in query order, and
    a key is absent exactly when it has no value. *)
Lemma parse_qs_lookup (qs k : string) :
  Urlparse.parse_qs qs !! k =
  match values_of k (Urlparse.parse_qsl qs) with
  | [] => None
  | vs => Some vs
  end.
Proof.
  unfold Urlparse.parse_qs. rewrite parse_qs_fold, lookup_empty.
  by destruct (values_of k (Urlparse.parse_qsl qs)).
Qed.

Lemma parse_qs_first (qs : string) :
  match Urlparse.parse_qs qs !! "q" with
  | Some (url :: _) => Some url
  | _ => None
  end = first_q qs.
Proof.
  rewrite parse_qs_lookup. unfold first_q.
  by destruct (values_of "q" (Urlparse.parse_qsl qs)).
Qed.

Lemma omap_cons {A B} (f : A → option B) (x : A) (xs : list A) :
  omap f (x :: xs) = option_list (f x) ++ omap f xs.
Proof. simpl. by destruct (f x). Qed.

(** One field of a query: either [parse_qsl] drops it and it has no
    non-blank raw value for [q], or it is a pair whose value is not blank. *)
Lemma parse_field_q (field : string) :
  values_of "q" (option_list (Urlparse.parse_field field)) =
  decoded <$> filter (λ v, v ≠ EmptyString) (option_list (raw_q_value field)).
Proof.
  unfold Urlparse.parse_field, raw_q_value.
  destruct (Str.split1 "=" field) as [n [v |]]; [| done].
  fold (decoded n). fold (decoded v).
  destruct (String.eqb_spec v EmptyString) as [-> | Hv].
  - case_bool_decide; [| done].
    change (option_list (Some ?x)) with [x].
    by rewrite filter_cons_False by (intros H'; by apply H').
  - change (option_list (Some ?x)) with [x].
    rewrite values_of_cons. case_bool_decide as Hq.
    + rewrite decide_True by done.
      change (option_list (Some ?x)) with [x].
      by rewrite filter_cons_True by done.
    + by rewrite decide_False by done.
Qed.

Lemma omap_length {A B} (f : A → option B) (xs : list A) :
  (length (omap f xs) ≤ length xs)%nat.
Proof.
  induction xs as [| x xs IH]; [done |].
  rewrite omap_cons, length_app. destruct (f x); simpl; lia.
Qed.

Lemma values_of_app (k : string) (xs ys : list (string * string)) :
  values_of k (xs ++ ys) = values_of k xs ++ values_of k ys.
Proof. unfold values_of. by rewrite filter_app, fmap_app. Qed.

(** The values of [q] are the non-blank raw values, decoded. *)
Lemma values_of_q_fields (fields : list string) :
  values_of "q" (omap Urlparse.parse_field fields) =
  decoded <$> filter (λ v, v ≠ EmptyString) (omap raw_q_value fields).
Proof.
  induction fields as [| field fields IH]; [done |].
  rewrite !omap_cons, values_of_app, filter_app, fmap_app.
  by rewrite parse_field_q, IH.
Qed.

Lemma first_q_blank (qs : string) :
  Forall (λ v, v = EmptyString) (raw_q_values qs) → first_q qs = None.
Proof.
  intros Hblank. unfold first_q, Urlparse.parse_qsl.
  rewrite values_of_q_fields. fold (raw_q_values qs).
  induction Hblank as [| v vs -> _ IH]; [done |].
  by rewrite filter_cons_False by (intros H'; by apply H').
Qed.

(** ** One link *)

Lemma visit_link_run (link : tag) (w : world) :
  visit_link link w =
  match destination link with
  | Raise e => Run [] (Raise e) w
  | Ok _ => Run (option_list (harvested link)) (Ok tt) w
  end.
Proof.
  unfold visit_link, harvested, destination.
  rewrite run_call_bind.
  destruct (Bs4.getitem link "href") as [href | e]; [| done].
  rewrite run_call_bind.
  destruct (Urlparse.urlparse href) as [parsed | e]; [| done].
  rewrite <- parse_qs_first.
  destruct (Urlparse.parse_qs (Urlparse.query parsed) !! "q") as [[| url urls] |];
    try done.
  by destruct (Str.startswith url "http").
Qed.

Lemma readable_destination (link : tag) :
  readable link ↔ ∃ d, destination link = Ok d.
Proof.
  unfold readable, destination. split.
  - intros (href & parsed & -> & ->). eauto.
  - intros [d Hd].
    destruct (Bs4.getitem link "href") as [href |]; [| done].
    destruct (Urlparse.urlparse href) as [parsed |] eqn:Hp; [| done].
    by exists href, parsed.
Qed.

Lemma harvested_starts_with_http (link : tag) (url : string) :
  harvested link = Some url → Str.startswith url "http" = true.
Proof.
  unfold harvested. destruct (destination link) as [[u |] |]; try done.
  destruct (Str.startswith u "http") eqn:Hu; [| done]. by intros [= <-].
Qed.

Lemma harvested_is_destination (link : tag) (url : string) :
  harvested link = Some url → destination link = Ok (Some url).
Proof.
  unfold harvested. destruct (destination link) as [[u |] |]; try done.
  destruct (Str.startswith u "http"); [| done]. by intros [= <-].
Qed.

(** ** The loop over the links *)

Lemma for_each_cons {A} (x : A) (xs : list A) (body : A -> py unit) (w : world) :
  for_each (x :: xs) body w = (body x ;;; for_each xs body) w.
Proof. done. Qed.

(** Every link readable: the loop visits them all, returns, and leaves the
    world alone. *)
Lemma visit_all (links : list tag) (w : world) :
  Forall readable links →
  for_each links visit_link w = Run (omap harvested links) (Ok tt) w.
Proof.
  induction 1 as [| link links Hlink _ IH]; [done |].
  apply readable_destination in Hlink as [d Hd].
  rewrite for_each_cons. unfold bind.
  rewrite visit_link_run, Hd. cbn [result final yielded]. rewrite IH.
  cbn [result final yielded]. by rewrite omap_cons.
Qed.

(** The loop stops at the first link it cannot read, after yielding for the
    links before it. *)
Lemma visit_until (before after : list tag) (bad : tag) (e : exn) (w : world) :
  Forall readable before → destination bad = Raise e →
  for_each (before ++ bad :: after) visit_link w =
  Run (omap harvested before) (Raise e) w.
Proof.
  intros Hbefore Hbad.
  induction Hbefore as [| link links Hlink _ IH].
  - cbn [app]. rewrite for_each_cons. unfold bind.
    by rewrite visit_link_run, Hbad.
  - apply readable_destination in Hlink as [d Hd].
    cbn [app]. rewrite for_each_cons. unfold bind.
    rewrite visit_link_run, Hd. cbn [result final yielded]. rewrite IH.
    cbn [result final yielded]. by rewrite omap_cons.
Qed.

Lemma readable_dec (link : tag) : readable link ∨ ∃ e, destination link = Raise e.
Proof.
  rewrite readable_destination.
  destruct (destination link) as [d | e]; eauto.
Qed.

(** In general the loop visits a first part of the links. *)
Lemma visit_prefix (links : list tag) (w : world) :
  ∃ visited,
    visited `prefix_of` links ∧
    yielded (for_each links visit_link w) = omap harvested visited ∧
    final (for_each links visit_link w) = w ∧
    (result (for_each links visit_link w) = Ok tt → visited = links) ∧
    (∀ e, result (for_each links visit_link w) = Raise e →
          ∃ bad, (visited ++ [bad]) `prefix_of` links ∧ destination bad = Raise e).
Proof.
  induction links as [| link links IH].
  - exists []. by repeat split.
  - destruct (readable_dec link) as [Hlink | [e He]].
    + apply readable_destination in Hlink as [d Hd].
      destruct IH as (visited & Hpre & Hy & Hf & Hok & Hraise).
      exists (link :: visited).
      rewrite for_each_cons. unfold bind.
      rewrite visit_link_run, Hd. cbn [result final yielded].
      rewrite Hy, Hf.
      split; [by apply prefix_cons |].
      split; [by rewrite omap_cons |].
      split; [done |]. split.
      * intros H'. by rewrite Hok.
      * intros e H'. destruct (Hraise e H') as (bad & Hb & Hbad).
        exists bad. split; [| done]. by apply (prefix_cons link) in Hb.
    + exists []. rewrite for_each_cons. unfold bind.
      rewrite visit_link_run, He. cbn [result final yielded].
      split; [apply prefix_nil |]. repeat split; try done.
      intros e' [= <-]. exists link. split; [| done].
      apply (prefix_cons link), prefix_nil.
Qed.

(** ** What a run yields *)

Lemma yields_only_bind {A B} (P : string → Prop) (m : py A) (k : A → py B) :
  yields_only P m → (∀ a, yields_only P (k a)) → yields_only P (bind m k).
Proof.
  intros Hm Hk w. unfold bind.
  destruct (result (m w)) as [a | e]; cbn [yielded]; [| apply Hm].
  apply Forall_app. split; [apply Hm | apply Hk].
Qed.

Lemma yields_only_silent {A} (P : string → Prop) (m : py A) :
  (∀ w, yielded (m w) = []) → yields_only P m.
Proof. intros H w. rewrite H. constructor. Qed.

Lemma extract_prefix (page : tag) (w : world) :
  ∃ visited,
    visited `prefix_of` Bs4.select page RESULT_SELECTOR ∧
    yielded (extract page w) = omap harvested visited ∧
    final (extract page w) = w ∧
    (result (extract page w) = Ok tt →
     visited = Bs4.select page RESULT_SELECTOR) ∧
    (∀ e, result (extract page w) = Raise e →
          ∃ bad, (visited ++ [bad]) `prefix_of` Bs4.select page RESULT_SELECTOR
                 ∧ destination bad = Raise e).
Proof. apply visit_prefix. Qed.

Lemma extract_yields_http (page : tag) : yields_only begins_with_http (extract page).
Proof.
  intros w. destruct (extract_prefix page w) as (visited & _ & -> & _).
  apply Forall_forall. intros url [link [_ Hl]]%list_elem_of_omap.
  by apply harvested_starts_with_http in Hl.
Qed.

Lemma google_for_today_yields_http : yields_only begins_with_http google_for_today.
Proof.
  unfold google_for_today.
  apply yields_only_bind; [by apply yields_only_silent |]. intros date.
  apply yields_only_bind.
  { apply yields_only_silent. intros w.
    by rewrite (format_date_for_search_pure date w w). }
  intros q. apply yields_only_bind; [by apply yields_only_silent |].
  intros response. apply yields_only_bind.
  { destruct (negb (status_code response =? 200));
      by apply yields_only_silent. }
  intros _. apply yields_only_bind; [by apply yields_only_silent |].
  intros google_soup. apply extract_yields_http.
Qed.

(** ** The workflow around the extractor *)

Section Workflow.

Variable w : world.
Variable q : string.
Variable resp : response.

Hypothesis Hquery :
  result (format_date_for_search
            (datetime_date_today w (today_calls w)) w) = Ok q.
Hypothesis Hfetch : requests_get w "http://google.com/search" [("q", q)] = Ok resp.

Lemma google_for_today_fetched :
  google_for_today w =
  (if negb (status_code resp =? 200) then
     print (PrintedHeaders (headers resp)) ;;;
     print (PrintedText (text resp)) ;;;
     raise (ValueError "bad google")
   else
     google_soup <- make_soup (content resp) ;;
     extract google_soup)
    (World (datetime_date_today w) (requests_get w) (BeautifulSoup w)
           (S (today_calls w)) (parsed w) (stdout w)).
Proof.
  unfold google_for_today.
  erewrite run_bind_ok by reflexivity.
  erewrite run_bind_ok
    by (rewrite (format_date_for_search_pure _ _ w), Hquery; reflexivity).
  erewrite run_bind_ok by (unfold get; cbn; rewrite Hfetch; reflexivity).
  destruct (negb (status_code resp =? 200)).
  - unfold bind, print, raise. reflexivity.
  - by erewrite run_bind_ok by reflexivity.
Qed.

(** A status other than 200: both prints, then the exception; the parser
    is not reached. *)
Lemma google_for_today_failed :
  status_code resp ≠ 200 →
  google_for_today w =
  Run [] (Raise (ValueError "bad google")) (after_failure w resp).
Proof.
  intros Hs. rewrite google_for_today_fetched.
  replace (status_code resp =? 200) with false
    by (symmetry; by apply Z.eqb_neq).
  cbn [negb]. unfold bind, print, raise, after_failure.
  cbn [result final yielded datetime_date_today requests_get BeautifulSoup
       today_calls parsed stdout app].
  by rewrite <- app_assoc.
Qed.

(** Status 200: the body is parsed and the extractor runs on the result. *)
Lemma google_for_today_extracts :
  status_code resp = 200 →
  google_for_today w =
  extract (BeautifulSoup w (content resp)) (after_fetch w resp).
Proof.
  intros Hs. rewrite google_for_today_fetched, Hs.
  cbn [Z.eqb Pos.eqb negb].
  by erewrite run_bind_ok by reflexivity.
Qed.

End Workflow.

(** ** The extractor *)

(** C3. Every URL the workflow yields, and every URL the extractor yields
    on any page, begins with [http]; a link whose destination begins with
    [http] yields exactly that destination, and a link whose destination
    does not is passed over: nothing yielded, nothing raised, the world
    untouched. *)
Theorem yielded_urls_begin_with_http (w : world) :
  Forall begins_with_http (yielded (google_for_today w)) ∧
  (∀ page, Forall begins_with_http (yielded (extract page w))) ∧
  (∀ link url, destination link = Ok (Some url) →
     (begins_with_http url → visit_link link w = Run [url] (Ok tt) w) ∧
     (¬ begins_with_http url → visit_link link w = Run [] (Ok tt) w)).
Proof.
  split; [apply google_for_today_yields_http |].
  split; [intros page; apply extract_yields_http |].
  intros link url Hd. rewrite visit_link_run. unfold harvested. rewrite Hd.
  unfold begins_with_http.
  destruct (Str.startswith url "http"); split; intros H'; try done.
Qed.

Lemma yielded_urls_begin_with_http_witness :
  visit_link (Sample.anchor "/url?q=/relative/path&sa=U" "Internal")
             (Sample.failing (Date 2014 1 17)) =
  Run [] (Ok tt) (Sample.failing (Date 2014 1 17)).
Proof.
  apply (proj2 (proj2 (yielded_urls_begin_with_http
                          (Sample.failing (Date 2014 1 17))))
           (Sample.anchor "/url?q=/relative/path&sa=U" "Internal")
           "/relative/path").
  - vm_compute. reflexivity.
  - vm_compute. discriminate.
Defined.

(** C4. On a page with exactly two selected links, one whose parameter [q]
    is [http://example.com/x] and one whose parameter is [/relative/path],
    in either order, extraction yields [http://example.com/x] alone and
    returns. *)
Theorem two_links_one_absolute (page : tag) (a b : tag) (w : world) :
  Bs4.select page RESULT_SELECTOR = [a; b] ∨
  Bs4.select page RESULT_SELECTOR = [b; a] →
  destination a = Ok (Some "http://example.com/x") →
  destination b = Ok (Some "/relative/path") →
  extract page w = Run ["http://example.com/x"] (Ok tt) w.
Proof.
  intros Hsel Ha Hb.
  assert (Hra : readable a) by (apply readable_destination; eauto).
  assert (Hrb : readable b) by (apply readable_destination; eauto).
  assert (Hha : harvested a = Some "http://example.com/x")
    by (unfold harvested; by rewrite Ha).
  assert (Hhb : harvested b = None) by (unfold harvested; by rewrite Hb).
  unfold extract.
  destruct Hsel as [-> | ->]; rewrite visit_all by (by repeat constructor);
    by rewrite !omap_cons, Hha, Hhb.
Qed.

Lemma two_links_one_absolute_witness :
  extract Sample.two_links (Sample.failing (Date 2014 1 17)) =
  Run ["http://example.com/x"] (Ok tt) (Sample.failing (Date 2014 1 17)).
Proof.
  apply (two_links_one_absolute Sample.two_links
           (Sample.anchor "/url?q=http://example.com/x&sa=U" "Example")
           (Sample.anchor "/url?q=/relative/path&sa=U" "Internal")).
  - left. vm_compute. reflexivity.
  - vm_compute. reflexivity.
  - vm_compute. reflexivity.
Defined.

(** C5. On a page where the selector [li.g h3.r a] matches no link,
    extraction yields nothing and returns without raising. *)
Theorem no_matching_link_yields_nothing (page : tag) (w : world) :
  Bs4.select page RESULT_SELECTOR = [] →
  extract page w = Run [] (Ok tt) w.
Proof. intros Hsel. unfold extract. by rewrite Hsel. Qed.

Lemma no_matching_link_yields_nothing_witness :
  extract Sample.no_results (Sample.failing (Date 2014 1 17)) =
  Run [] (Ok tt) (Sample.failing (Date 2014 1 17)).
Proof.
  apply (no_matching_link_yields_nothing Sample.no_results).
  vm_compute. reflexivity.
Defined.

(** C6, as stated, fails: a selected link without [href] raises
    [KeyError], and the link after it is never visited. *)
Lemma link_without_href_raises :
  extract Sample.missing_href (Sample.failing (Date 2014 1 17)) =
  Run ["http://a.example/"] (Raise (KeyError "href"))
      (Sample.failing (Date 2014 1 17)).
Proof. vm_compute. reflexivity. Qed.

(** An [href] whose network location has an unmatched bracket is refused
    by [urlparse], which ends the extraction as well. *)
Example link_with_bad_netloc_raises :
  extract Sample.bad_netloc (Sample.failing (Date 2014 1 17)) =
  Run [] (Raise (ValueError "Invalid IPv6 URL"))
      (Sample.failing (Date 2014 1 17)).
Proof. vm_compute. reflexivity. Qed.

(** C6, amended. On a page whose selected links all have an [href] that
    [urlparse] accepts, extraction raises nothing and visits every link; a
    link whose [href] has no parameter [q], or only blank ones, yields
    nothing, raises nothing and changes nothing, and the links before and
    after it contribute as if it were not there. *)
Theorem skipped_links_are_silent (page : tag) (w : world) :
  Forall readable (Bs4.select page RESULT_SELECTOR) →
  extract page w =
    Run (omap harvested (Bs4.select page RESULT_SELECTOR)) (Ok tt) w ∧
  (∀ link, q_missing_or_blank link →
     visit_link link w = Run [] (Ok tt) w) ∧
  (∀ before link after,
     Bs4.select page RESULT_SELECTOR = before ++ link :: after →
     q_missing_or_blank link →
     extract page w =
       Run (omap harvested before ++ omap harvested after) (Ok tt) w).
Proof.
  intros Hall.
  assert (Hskip : ∀ link, q_missing_or_blank link → harvested link = None).
  { intros link (href & parsed & Hh & Hp & Hblank).
    unfold harvested, destination. rewrite Hh, Hp.
    by rewrite (first_q_blank _ Hblank). }
  split; [by apply visit_all |]. split.
  - intros link Hlink. rewrite visit_link_run.
    rewrite (Hskip link Hlink).
    destruct Hlink as (href & parsed & Hh & Hp & _).
    unfold destination. by rewrite Hh, Hp.
  - intros before link after Hsel Hlink. unfold extract.
    rewrite visit_all by done.
    by rewrite Hsel, omap_app, omap_cons, (Hskip link Hlink).
Qed.

Lemma skipped_links_are_silent_witness :
  extract Sample.mixed (Sample.failing (Date 2014 1 17)) =
  Run ["https://b.example/~user"; "http://d.example/"] (Ok tt)
      (Sample.failing (Date 2014 1 17)).
Proof.
  refine (proj2 (proj2 (skipped_links_are_silent Sample.mixed
                          (Sample.failing (Date 2014 1 17)) _))
            [Sample.anchor "/url?sa=U" "no q"]
            (Sample.anchor "/url?q=&sa=U" "empty q")
            [Sample.anchor "/url?q=https://b.example/%7Euser&q=http://c.example/" "B";
             Sample.anchor EmptyString "empty href";
             Sample.anchor "/url?q=http://d.example/" "D"]
            _ _).
  - vm_compute. repeat constructor; eexists _, _; split; reflexivity.
  - vm_compute. reflexivity.
  - eexists _, _. split; [reflexivity |]. split; [reflexivity |].
    vm_compute. repeat constructor.
Defined.

(** C10. On every page the extractor visits the selected links in document
    order, up to the end or to the first link it cannot read: what it yields
    is, link by link and in that order, at most one URL per visited link,
    hence never more URLs than links; and the URL a link contributes is the
    first value of the parameter [q] in the query of its [href]. *)
Theorem one_url_per_link_in_order (page : tag) (w : world) :
  ∃ visited : list tag,
    visited `prefix_of` Bs4.select page RESULT_SELECTOR ∧
    yielded (extract page w) = omap harvested visited ∧
    (result (extract page w) = Ok tt →
     visited = Bs4.select page RESULT_SELECTOR) ∧
    (length (yielded (extract page w))
     ≤ length (Bs4.select page RESULT_SELECTOR))%nat ∧
    (∀ link url, harvested link = Some url →
       ∃ href parsed,
         Bs4.getitem link "href" = Ok href ∧
         Urlparse.urlparse href = Ok parsed ∧
         first_q (Urlparse.query parsed) = Some url).
Proof.
  destruct (extract_prefix page w) as (visited & Hpre & Hy & _ & Hok & _).
  exists visited. repeat split; try done.
  - rewrite Hy. apply prefix_length in Hpre.
    etrans; [apply omap_length | done].
  - intros link url Hl%harvested_is_destination.
    unfold destination in Hl.
    destruct (Bs4.getitem link "href") as [href |]; [| done].
    destruct (Urlparse.urlparse href) as [parsed |] eqn:Hp; [| done].
    exists href, parsed. split; [done |]. split; [done | congruence].
Qed.

Lemma one_url_per_link_in_order_witness :
  ∃ visited : list tag,
    visited = Bs4.select Sample.mixed RESULT_SELECTOR ∧
    omap harvested visited = ["https://b.example/~user"; "http://d.example/"].
Proof.
  destruct (one_url_per_link_in_order Sample.mixed
              (Sample.failing (Date 2014 1 17)))
    as (visited & _ & Hy & Hall & _).
  exists visited. split.
  - apply Hall. vm_compute. reflexivity.
  - rewrite <- Hy. vm_compute. reflexivity.
Defined.

(** ** Fetch failure *)

(** C7. When the server answers the search with a status other than 200,
    [google_for_today] raises [ValueError] after printing the headers and
    the text of the response: it yields no URL, and it ends with the parser
    never called, the clock read once and nothing else printed. *)
Theorem fetch_failure_is_fatal (w : world) (q : string) (resp : response) :
  result (format_date_for_search
            (datetime_date_today w (today_calls w)) w) = Ok q →
  requests_get w "http://google.com/search" [("q", q)] = Ok resp →
  status_code resp ≠ 200 →
  google_for_today w =
    Run [] (Raise (ValueError "bad google")) (after_failure w resp) ∧
  parsed (final (google_for_today w)) = parsed w ∧
  stdout (final (google_for_today w)) =
    stdout w ++ [PrintedHeaders (headers resp); PrintedText (text resp)].
Proof.
  intros Hq Hget Hs.
  by rewrite (google_for_today_failed w q resp Hq Hget Hs).
Qed.

Lemma fetch_failure_is_fatal_witness :
  google_for_today (Sample.failing (Date 2014 1 17)) =
  Run [] (Raise (ValueError "bad google"))
      (after_failure (Sample.failing (Date 2014 1 17)) Sample.failure).
Proof.
  apply (fetch_failure_is_fatal (Sample.failing (Date 2014 1 17))
           "Friday January 17th 2014" Sample.failure).
  - vm_compute. reflexivity.
  - reflexivity.
  - vm_compute. discriminate.
Defined.

(** The recorded scenario of [test_google_for_today], on a small page: with
    status 200 the workflow yields what the extractor finds. *)
Example google_for_today_on_sample :
  let w := Sample.serving 200 Sample.mixed (Date 2014 1 17) in
  yielded (google_for_today w) = ["https://b.example/~user"; "http://d.example/"] ∧
  result (google_for_today w) = Ok tt ∧
  parsed (final (google_for_today w)) = ["<html>...</html>"] ∧
  today_calls (final (google_for_today w)) = 1%nat.
Proof. vm_compute. by repeat split. Qed.

(** ** Names printed for real dates *)

(** The weekday of any date is one of the seven names, and the month of a
    date that [datetime.date] accepts is one of the twelve. *)
Lemma names_of_valid_date (d : date) :
  day_name d ∈ Datetime.day_names ∧
  (Datetime.valid d = true → month_name d ∈ Datetime.month_names).
Proof.
  split.
  - unfold day_name, Datetime.weekday.
    pose proof (Z.mod_pos_bound (Datetime.toordinal d + 6) 7 ltac:(lia)) as Hb.
    assert (Z.to_nat ((Datetime.toordinal d + 6) mod 7) < 7)%nat as Hn by lia.
    apply (lookup_lt_is_Some_2 Datetime.day_names) in Hn as [name Hn].
    rewrite Hn. simpl. by apply list_elem_of_lookup_2 in Hn.
  - unfold Datetime.valid, month_name. intros Hv.
    assert (Z.to_nat (month d - 1) < 12)%nat as Hn
      by (repeat (apply andb_prop in Hv as [Hv ?]); lia).
    apply (lookup_lt_is_Some_2 Datetime.month_names) in Hn as [name Hn].
    rewrite Hn. simpl. by apply list_elem_of_lookup_2 in Hn.
Qed.

(** * Further properties of [real_code.py] *)

(** ** The table against the English rule *)

(** X1. On the days of a month, 1 to 31, the seven entries of
    [ORDINAL_SUFFIXES] with the default [th] give the suffix of the English
    rule (teens take [th], other numbers go by their last digit). *)
Theorem suffix_follows_english_rule (d : Z) :
  1 <= d <= 31 → suffix d = english_ordinal_suffix d.
Proof.
  intros Hd.
  assert (forallb (λ d, String.eqb (suffix d) (english_ordinal_suffix d))
                  (seqZ 1 31) = true) as Hall by (vm_compute; reflexivity).
  rewrite forallb_forall in Hall.
  apply String.eqb_eq, Hall, list_elem_of_In, elem_of_seqZ. lia.
Qed.

Lemma suffix_follows_english_rule_witness :
  suffix 12 = english_ordinal_suffix 12.
Proof. apply (suffix_follows_english_rule 12). lia. Defined.

(** Beyond 31 the table no longer follows the rule. *)
Example suffix_beyond_table : suffix 41 = "th" ∧ english_ordinal_suffix 41 = "st".
Proof. split; vm_compute; reflexivity. Qed.

(** ** The extractor reads the page only *)

Lemma for_each_visit_pure (links : list tag) :
  ∃ urls end_, ∀ w, for_each links visit_link w = Run urls end_ w.
Proof.
  induction links as [| link links (urls & end_ & IH)].
  - by exists [], (Ok tt).
  - destruct (destination link) as [d | e] eqn:Hd.
    + exists (option_list (harvested link) ++ urls), end_. intros w.
      rewrite for_each_cons. unfold bind.
      rewrite visit_link_run, Hd. cbn [result final yielded].
      by rewrite IH.
    + exists [], (Raise e). intros w.
      rewrite for_each_cons. unfold bind.
      by rewrite visit_link_run, Hd.
Qed.

(** X2. Extraction does no input or output and reads no global: the URLs it
    yields and the way it ends are the same in any two worlds, and it leaves
    the world as it found it. *)
Theorem extract_reads_page_only (page : tag) (w1 w2 : world) :
  yielded (extract page w1) = yielded (extract page w2) ∧
  result (extract page w1) = result (extract page w2) ∧
  final (extract page w1) = w1.
Proof.
  unfold extract.
  destruct (for_each_visit_pure (Bs4.select page RESULT_SELECTOR))
    as (urls & end_ & H).
  by rewrite !H.
Qed.

(** X3. Extraction stops at the first selected link it cannot read (no
    [href], or an [href] that [urlparse] refuses): it yields for the links
    before that one, raises that link's exception, and the links after it
    contribute nothing, readable or not. *)
Theorem extraction_stops_at_unreadable_link
    (page : tag) (before after : list tag) (bad : tag) (e : exn) (w : world) :
  Bs4.select page RESULT_SELECTOR = before ++ bad :: after →
  Forall readable before →
  destination bad = Raise e →
  extract page w = Run (omap harvested before) (Raise e) w.
Proof.
  intros Hsel Hbefore Hbad. unfold extract. rewrite Hsel.
  by apply visit_until.
Qed.

Lemma extraction_stops_at_unreadable_link_witness :
  extract Sample.missing_href (Sample.failing (Date 2014 1 17)) =
  Run ["http://a.example/"] (Raise (KeyError "href"))
      (Sample.failing (Date 2014 1 17)).
Proof.
  apply (extraction_stops_at_unreadable_link Sample.missing_href
           [Sample.anchor "/url?q=http://a.example/" "A"]
           [Sample.anchor "/url?q=http://d.example/" "D"]
           (Tag "a" [] [("name", "top")] [NavigableString "?"])).
  - vm_compute. reflexivity.
  - repeat constructor. eexists _, _. split; vm_compute; reflexivity.
  - vm_compute. reflexivity.
Defined.

(** ** What a link's destination is *)

(** X4. The destination read from a link is the first value of [q] that
    is not blank, decoded ([+] to a space, then percent-escapes): blank
    values of [q] are passed over even when they come first, and the test
    for [http] is made on the decoded text. *)
Theorem destination_is_first_nonblank_q_decoded
    (link : tag) (href : string) (parsed : Urlparse.SplitResult) :
  Bs4.getitem link "href" = Ok href →
  Urlparse.urlparse href = Ok parsed →
  destination link =
    Ok (decoded <$> head (filter nonblank (raw_q_values (Urlparse.query parsed)))) ∧
  ∀ w, visit_link link w =
       Run (match decoded <$> head (filter nonblank
                                      (raw_q_values (Urlparse.query parsed))) with
            | Some url => if Str.startswith url "http" then [url] else []
            | None => []
            end) (Ok tt) w.
Proof.
  intros Hh Hp.
  assert (destination link =
          Ok (decoded <$> head (filter nonblank
                                  (raw_q_values (Urlparse.query parsed))))) as Hd.
  { unfold destination. rewrite Hh, Hp. f_equal.
    unfold first_q, Urlparse.parse_qsl. rewrite values_of_q_fields.
    fold (raw_q_values (Urlparse.query parsed)).
    by destruct (filter _ (raw_q_values (Urlparse.query parsed))). }
  split; [done |]. intros w.
  rewrite visit_link_run. unfold harvested. rewrite Hd.
  destruct (decoded <$> _) as [url |]; [| done].
  by destruct (Str.startswith url "http").
Qed.

Lemma destination_is_first_nonblank_q_decoded_witness :
  destination (Sample.anchor "/url?q=&q=%68ttp%3A%2F%2Fexample.com%2Fa+b" "x") =
  Ok (Some "http://example.com/a b").
Proof.
  refine (proj1 (destination_is_first_nonblank_q_decoded
                   (Sample.anchor "/url?q=&q=%68ttp%3A%2F%2Fexample.com%2Fa+b" "x")
                   "/url?q=&q=%68ttp%3A%2F%2Fexample.com%2Fa+b"
                   (Urlparse.mkSplitResult EmptyString EmptyString "/url"
                      "q=&q=%68ttp%3A%2F%2Fexample.com%2Fa+b" EmptyString)
                   _ _)); vm_compute; reflexivity.
Defined.

(** ** The workflow, case by case *)

Lemma google_for_today_request_raised (w : world) (q : string) (e : exn) :
  result (format_date_for_search
            (datetime_date_today w (today_calls w)) w) = Ok q →
  requests_get w SEARCH_URL [("q", q)] = Raise e →
  google_for_today w = Run [] (Raise e) (ticked w).
Proof.
  intros Hq Hget. unfold google_for_today.
  erewrite run_bind_ok by reflexivity.
  erewrite run_bind_ok
    by (rewrite (format_date_for_search_pure _ _ w), Hq; reflexivity).
  by erewrite run_bind_raise
    by (unfold get; cbn; fold SEARCH_URL; rewrite Hget; reflexivity).
Qed.

(** X5. With a clock date from 1900 on, a response of status 200 and a page
    whose selected links are all readable, [google_for_today] yields, in
    document order, the destinations beginning with [http] of the links that
    [li.g h3.r a] selects in the parsed body of the response, and returns;
    the request carries the formatted date as [q], the clock is read once,
    the body ([content], not [text]) is parsed once and nothing is
    printed. *)
Theorem google_for_today_harvests (w : world) (resp : response) :
  1900 <= year (datetime_date_today w (today_calls w)) →
  requests_get w SEARCH_URL
    [("q", query_string_of (datetime_date_today w (today_calls w)))] = Ok resp →
  status_code resp = 200 →
  Forall readable
    (Bs4.select (BeautifulSoup w (content resp)) RESULT_SELECTOR) →
  google_for_today w =
  Run (omap harvested
         (Bs4.select (BeautifulSoup w (content resp)) RESULT_SELECTOR))
      (Ok tt) (after_fetch w resp).
Proof.
  intros Hy Hget Hs Hall.
  rewrite (google_for_today_extracts w _ resp
             (format_date_for_search_total _ w Hy) Hget Hs).
  unfold extract. by apply visit_all.
Qed.

Lemma google_for_today_harvests_witness :
  google_for_today (Sample.serving 200 Sample.mixed (Date 2014 1 17)) =
  Run ["https://b.example/~user"; "http://d.example/"] (Ok tt)
      (after_fetch (Sample.serving 200 Sample.mixed (Date 2014 1 17))
         (Response 200 [("content-type", "text/html")]
                   "<html>...</html>" "<html>...</html>")).
Proof.
  refine (google_for_today_harvests
            (Sample.serving 200 Sample.mixed (Date 2014 1 17))
            (Response 200 [("content-type", "text/html")]
                      "<html>...</html>" "<html>...</html>") _ _ _ _).
  - vm_compute. discriminate.
  - reflexivity.
  - reflexivity.
  - vm_compute. repeat constructor; eexists _, _; split; reflexivity.
Defined.

(** X6. When [requests.get] raises, [google_for_today] ends with that very
    exception: nothing is yielded, nothing printed, nothing parsed. *)
Theorem request_exception_propagates (w : world) (q : string) (e : exn) :
  result (format_date_for_search
            (datetime_date_today w (today_calls w)) w) = Ok q →
  requests_get w SEARCH_URL [("q", q)] = Raise e →
  google_for_today w = Run [] (Raise e) (ticked w).
Proof. apply google_for_today_request_raised. Qed.

Lemma request_exception_propagates_witness :
  let w := with_requests (Sample.failing (Date 2014 1 17))
             (λ _ _, Raise (RequestException "connection refused")) in
  google_for_today w =
  Run [] (Raise (RequestException "connection refused")) (ticked w).
Proof.
  intros w.
  apply (request_exception_propagates w "Friday January 17th 2014");
    vm_compute; reflexivity.
Defined.

(** X7. With a clock date before 1900 the formatter raises [ValueError] in
    [strftime], and so do [format_today_for_search] and [google_for_today]:
    the clock has been read once, no response is read, nothing is yielded,
    printed or parsed, whatever [requests.get] would have answered. *)
Theorem before_1900_nothing_is_fetched (w : world) :
  year (datetime_date_today w (today_calls w)) < 1900 →
  ∃ msg,
    format_today_for_search w = Run [] (Raise (ValueError msg)) (ticked w) ∧
    ∀ get', google_for_today (with_requests w get') =
            Run [] (Raise (ValueError msg)) (ticked (with_requests w get')).
Proof.
  intros Hy.
  destruct (format_date_for_search_raises _ w Hy) as [msg Hmsg].
  exists msg. split.
  - unfold format_today_for_search.
    erewrite run_bind_ok by reflexivity.
    by rewrite (format_date_for_search_pure _ _ w), Hmsg.
  - intros get'. unfold google_for_today.
    erewrite run_bind_ok by reflexivity.
    by erewrite run_bind_raise
      by (rewrite (format_date_for_search_pure _ _ w); cbn;
          rewrite Hmsg; reflexivity).
Qed.

Lemma before_1900_nothing_is_fetched_witness :
  ∃ msg, format_today_for_search (Sample.failing (Date 1899 12 31)) =
         Run [] (Raise (ValueError msg)) (ticked (Sample.failing (Date 1899 12 31))).
Proof.
  destruct (before_1900_nothing_is_fetched (Sample.failing (Date 1899 12 31)))
    as (msg & H & _).
  - vm_compute. reflexivity.
  - by exists msg.
Defined.

(** X8. The workflow makes one request only, to [http://google.com/search]
    with the formatted date as [q]: replacing [requests.get] by a function
    that answers that request alike and any other request differently
    changes neither what is yielded, nor how the run ends, nor what is
    printed or parsed. *)
Theorem google_for_today_single_request
    (w : world) (get' : string → list (string * string) → outcome response)
    (q : string) :
  result (format_date_for_search
            (datetime_date_today w (today_calls w)) w) = Ok q →
  get' SEARCH_URL [("q", q)] = requests_get w SEARCH_URL [("q", q)] →
  yielded (google_for_today (with_requests w get')) =
    yielded (google_for_today w) ∧
  result (google_for_today (with_requests w get')) =
    result (google_for_today w) ∧
  stdout (final (google_for_today (with_requests w get'))) =
    stdout (final (google_for_today w)) ∧
  parsed (final (google_for_today (with_requests w get'))) =
    parsed (final (google_for_today w)).
Proof.
  intros Hq Hsame.
  assert (result (format_date_for_search
                    (datetime_date_today (with_requests w get')
                       (today_calls (with_requests w get')))
                    (with_requests w get')) = Ok q) as Hq'
    by (by rewrite (format_date_for_search_pure _ _ w)).
  destruct (requests_get w SEARCH_URL [("q", q)]) as [resp | e] eqn:Hget.
  - destruct (decide (status_code resp = 200)) as [Hs | Hs].
    + rewrite (google_for_today_extracts _ q resp Hq' Hsame Hs).
      rewrite (google_for_today_extracts _ q resp Hq Hget Hs).
      unfold extract. cbn [BeautifulSoup with_requests].
      destruct (for_each_visit_pure
                  (Bs4.select (BeautifulSoup w (content resp)) RESULT_SELECTOR))
        as (urls & end_ & H).
      by rewrite !H.
    + rewrite (google_for_today_failed _ q resp Hq' Hsame Hs).
      by rewrite (google_for_today_failed _ q resp Hq Hget Hs).
  - rewrite (google_for_today_request_raised _ q e Hq' Hsame).
    by rewrite (google_for_today_request_raised _ q e Hq Hget).
Qed.

Lemma google_for_today_single_request_witness :
  yielded (google_for_today
             (with_requests (Sample.serving 200 Sample.mixed (Date 2014 1 17))
                (λ url params,
                   if bool_decide (params = [("q", "Friday January 17th 2014")])
                   then Ok (Response 200 [("content-type", "text/html")]
                              "<html>...</html>" "<html>...</html>")
                   else Raise (RequestException "unexpected request")))) =
  ["https://b.example/~user"; "http://d.example/"].
Proof.
  refine (proj1 (google_for_today_single_request
                   (Sample.serving 200 Sample.mixed (Date 2014 1 17))
                   _ "Friday January 17th 2014" _ _));
    vm_compute; reflexivity.
Defined.

(** ** What the selector selects *)

Lemma tag_induction (P : tag → Prop) :
  (∀ s, P (NavigableString s)) →
  (∀ n cs attrs kids, Forall P kids → P (Tag n cs attrs kids)) →
  ∀ t, P t.
Proof.
  intros Hstring Htag. fix IH 1. intros [n cs attrs kids | s]; [| apply Hstring].
  apply Htag. induction kids as [| kid kids IHkids]; constructor;
    [apply IH | exact IHkids].
Qed.

Lemma Forall_flat_map {A B} (P : B → Prop) (f : A → list B) (xs : list A) :
  Forall (λ x, Forall P (f x)) xs → Forall P (flat_map f xs).
Proof.
  induction 1 as [| x xs Hx _ IH]; simpl; [constructor |].
  apply Forall_app. by split.
Qed.

(** Whatever the earlier steps, the tags [descend] returns match the last
    step of the selector. *)
Lemma descend_matches_last (last : Bs4.simple_selector) (t : tag) :
  ∀ earlier, Forall (λ x, Bs4.matches last x = true)
                    (Bs4.descend (earlier ++ [last]) t).
Proof.
  induction t as [s | n cs attrs kids IH] using tag_induction;
    intros earlier; [constructor |].
  destruct earlier as [| step earlier].
  - cbn [app Bs4.descend]. apply Forall_app. split.
    + destruct (Bs4.matches last (Tag n cs attrs kids)) eqn:Hm;
        repeat constructor. done.
    + apply Forall_flat_map.
      eapply Forall_impl; [exact IH |]. intros kid Hkid. apply (Hkid []).
  - change (Bs4.descend ((step :: earlier) ++ [last]) (Tag n cs attrs kids))
      with (match earlier ++ [last] with
            | [] => (if Bs4.matches step (Tag n cs attrs kids)
                     then [Tag n cs attrs kids] else [])
                    ++ flat_map (Bs4.descend (step :: earlier ++ [last])) kids
            | _ :: _ =>
                flat_map (Bs4.descend
                            (if Bs4.matches step (Tag n cs attrs kids)
                             then earlier ++ [last]
                             else step :: earlier ++ [last])) kids
            end).
    destruct (earlier ++ [last]) as [| x xs] eqn:Hl;
      [by destruct earlier |]. rewrite <- Hl.
    apply Forall_flat_map. eapply Forall_impl; [exact IH |].
    intros kid Hkid.
    destruct (Bs4.matches step (Tag n cs attrs kids));
      [apply Hkid | apply (Hkid (step :: earlier))].
Qed.

(** X9. Every link the loop visits is an [a] tag: [li.g h3.r a] selects
    nothing else, so [link['href']] is always asked of an anchor. *)
Theorem selected_links_are_anchors (page : tag) :
  Forall is_anchor (Bs4.select page RESULT_SELECTOR).
Proof.
  destruct page as [n cs attrs kids | s]; [| constructor].
  cbn [Bs4.select]. apply Forall_flat_map, Forall_forall. intros kid _.
  eapply Forall_impl;
    [apply (descend_matches_last (Bs4.Simple "a" None) kid
              [Bs4.Simple "li" (Some "g"); Bs4.Simple "h3" (Some "r")]) |].
  intros [n' cs' attrs' kids' | s']; cbn; [| done].
  rewrite andb_true_r. by intros ?%String.eqb_eq.
Qed.

Lemma flat_map_nothing {A B} (f : A → list B) (xs : list A) :
  Forall (λ x, f x = []) xs → flat_map f xs = [].
Proof. induction 1 as [| x xs Hx _ IH]; simpl; [done |]. by rewrite Hx, IH. Qed.

Lemma any_tag_kids (p : tag → bool) n cs attrs (kids : list tag) :
  any_tag p (Tag n cs attrs kids) = false →
  p (Tag n cs attrs kids) = false ∧ Forall (λ kid, any_tag p kid = false) kids.
Proof.
  cbn [any_tag]. intros [Hp Hkids]%orb_false_elim. split; [done |].
  apply Forall_forall. intros kid Hkid%list_elem_of_In.
  destruct (any_tag p kid) eqn:Hk; [| done].
  assert (existsb (any_tag p) kids = true) by (apply existsb_exists; eauto).
  congruence.
Qed.

(** A step of the selector, other than the last, that no tag matches
    leaves nothing to select. *)
Lemma descend_without_step (step : Bs4.simple_selector) (t : tag) :
  any_tag (Bs4.matches step) t = false →
  ∀ pre post, post ≠ [] → Bs4.descend (pre ++ step :: post) t = [].
Proof.
  induction t as [s | n cs attrs kids IH] using tag_induction;
    intros Hnone pre post Hpost; [by destruct (pre ++ step :: post) |].
  apply any_tag_kids in Hnone as [Hstep Hkids].
  assert (∀ pre', Forall (λ kid, Bs4.descend (pre' ++ step :: post) kid = []) kids)
    as Hbelow.
  { intros pre'. apply Forall_forall. intros kid Hkid.
    rewrite Forall_forall in IH, Hkids. by apply IH; [| apply Hkids |]. }
  destruct post as [| x post]; [done |].
  destruct pre as [| p pre].
  - cbn [app Bs4.descend]. rewrite Hstep. apply flat_map_nothing, (Hbelow []).
  - assert (∃ y ys, pre ++ step :: x :: post = y :: ys) as (y & ys & Hl)
      by (destruct pre; simpl; eauto).
    cbn [app Bs4.descend]. rewrite Hl, <- Hl.
    apply flat_map_nothing.
    destruct (Bs4.matches p (Tag n cs attrs kids));
      [apply Hbelow | apply (Hbelow (p :: pre))].
Qed.

(** X10. A page with no [li] of class [g] anywhere, or with no [h3] of
    class [r] anywhere, has no result link: nothing is selected and
    extraction yields nothing and returns. *)
Theorem pages_without_result_items_yield_nothing
    (page : tag) (step : Bs4.simple_selector) (w : world) :
  step = Bs4.Simple "li" (Some "g") ∨ step = Bs4.Simple "h3" (Some "r") →
  any_tag (Bs4.matches step) page = false →
  Bs4.select page RESULT_SELECTOR = [] ∧
  extract page w = Run [] (Ok tt) w.
Proof.
  intros Hstep Hnone.
  assert (Bs4.select page RESULT_SELECTOR = []) as Hsel.
  { destruct page as [n cs attrs kids | s]; [| done].
    apply any_tag_kids in Hnone as [_ Hkids].
    cbn [Bs4.select]. apply flat_map_nothing.
    eapply Forall_impl; [exact Hkids |]. intros kid Hkid.
    destruct Hstep as [-> | ->].
    - by apply (descend_without_step _ kid Hkid []).
    - by apply (descend_without_step _ kid Hkid [Bs4.Simple "li" (Some "g")]). }
  split; [done |]. unfold extract. by rewrite Hsel.
Qed.

Lemma pages_without_result_items_yield_nothing_witness :
  extract Sample.no_results (Sample.failing (Date 2014 1 17)) =
  Run [] (Ok tt) (Sample.failing (Date 2014 1 17)).
Proof.
  refine (proj2 (pages_without_result_items_yield_nothing Sample.no_results
                   (Bs4.Simple "li" (Some "g"))
                   (Sample.failing (Date 2014 1 17)) _ _)).
  - by left.
  - vm_compute. reflexivity.
Defined.
